(** * animated-waves: the parameter generators and the render pipeline

    A shallow embedding of the two variants of the <animated-waves> custom
    element, [src/index.ts] (module [Index]) and [test.ts] (module [Test]).

    - Element attributes are a finite map from names to strings;
      [getAttribute] is map lookup, [null] is [None].
    - JavaScript numbers are an interface [JSNumber] with two instances:
      [xnum], exact rational arithmetic extended with NaN and the two
      infinities (every operation follows IEEE 754 except that finite
      results are not rounded and the two zeros are one), over which the
      general theorems are proved, and [float], the kernel's binary64, on
      which the same code is run on concrete inputs.
    - [Math.random()] is a draw from a source [nat -> num], the state being
      the number of draws made so far.
    - A template literal is the list of its literal chunks and its
      substituted values, in order; string concatenation is list append. *)

From Stdlib Require Import ZArith QArith Lqa Floats String Ascii List Bool Lia.
From stdpp Require Import gmap strings.
Import ListNotations.
Open Scope string_scope.

(** ** Numbers *)

(** The operations the program uses on numbers. [ofDecimal s m e] is the
    number denoted by the decimal literal with sign [s] (true: negative),
    digits [m] and decimal exponent [e], that is (-1)^s * m * 10^e. *)
Class JSNumber (num : Type) := {
  nan : num;
  infinity : bool -> num;
  ofDecimal : bool -> N -> Z -> num;
  add : num -> num -> num;
  sub : num -> num -> num;
  mul : num -> num -> num;
  div : num -> num -> num;
  neg : num -> num;
  Math_max : num -> num -> num;
  isNaN : num -> bool;
  ltb : num -> num -> bool
}.

Definition lit {num : Type} `{JSNumber num} (m : Z) (e : Z) : num :=
  ofDecimal (m <? 0)%Z (Z.abs_N m) e.

Definition int {num : Type} `{JSNumber num} (z : Z) : num := lit z 0.

(** *** Exact arithmetic with NaN and infinities *)

Inductive xnum : Type :=
  | XNaN
  | XInf (negative : bool)
  | XFin (q : Q).

Definition Qneg (q : Q) : bool := Qle_bool q 0 && negb (Qeq_bool q 0).
Definition Qzero (q : Q) : bool := Qeq_bool q 0.

Definition xadd (a b : xnum) : xnum :=
  match a, b with
  | XNaN, _ | _, XNaN => XNaN
  | XInf s, XInf t => if eqb s t then XInf s else XNaN
  | XInf s, XFin _ | XFin _, XInf s => XInf s
  | XFin p, XFin q => XFin (p + q)%Q
  end.

Definition xneg (a : xnum) : xnum :=
  match a with
  | XNaN => XNaN
  | XInf s => XInf (negb s)
  | XFin q => XFin (- q)%Q
  end.

Definition xsub (a b : xnum) : xnum := xadd a (xneg b).

Definition xmul (a b : xnum) : xnum :=
  match a, b with
  | XNaN, _ | _, XNaN => XNaN
  | XInf s, XInf t => XInf (xorb s t)
  | XInf s, XFin q | XFin q, XInf s =>
      if Qzero q then XNaN else XInf (xorb s (Qneg q))
  | XFin p, XFin q => XFin (p * q)%Q
  end.

(** Division by a zero gives an infinity of the sign of the dividend, and
    NaN for 0/0 (the divisor is taken as +0). *)
Definition xdiv (a b : xnum) : xnum :=
  match a, b with
  | XNaN, _ | _, XNaN => XNaN
  | XInf _, XInf _ => XNaN
  | XInf s, XFin q => XInf (xorb s (Qneg q))
  | XFin _, XInf _ => XFin 0
  | XFin p, XFin q =>
      if Qzero q then (if Qzero p then XNaN else XInf (Qneg p))
      else XFin (p / q)%Q
  end.

Definition xltb (a b : xnum) : bool :=
  match a, b with
  | XNaN, _ | _, XNaN => false
  | XInf s, XInf t => s && negb t
  | XInf s, XFin _ => s
  | XFin _, XInf t => negb t
  | XFin p, XFin q => Qle_bool p q && negb (Qeq_bool p q)
  end.

Definition xmax (a b : xnum) : xnum :=
  match a, b with
  | XNaN, _ | _, XNaN => XNaN
  | _, _ => if xltb a b then b else a
  end.

Definition xisNaN (a : xnum) : bool :=
  match a with XNaN => true | _ => false end.

Definition xofDecimal (s : bool) (m : N) (e : Z) : xnum :=
  XFin (inject_Z (if s then - Z.of_N m else Z.of_N m)%Z * 10 ^ e)%Q.

#[export] Instance xnum_JSNumber : JSNumber xnum := {|
  nan := XNaN;
  infinity := XInf;
  ofDecimal := xofDecimal;
  add := xadd;
  sub := xsub;
  mul := xmul;
  div := xdiv;
  neg := xneg;
  Math_max := xmax;
  isNaN := xisNaN;
  ltb := xltb
|}.




(** *** binary64 *)

(** The binary64 value nearest to the positive rational [p/q], ties to
    even: the quotient is taken with 53 significant bits (fewer below the
    normal range), then rounded on the remainder. *)
Definition nearest (p q : positive) : float :=
  let scaled (e : Z) : Z * Z :=
    if (0 <=? e)%Z then (Zpos p, Zpos q * 2 ^ e)%Z
    else (Zpos p * 2 ^ (- e), Zpos q)%Z in
  let e0 := (Z.log2 (Zpos p) - Z.log2 (Zpos q) - 52)%Z in
  let e1 := let '(n, d) := scaled e0 in
            if (n / d <? 2 ^ 52)%Z then (e0 - 1)%Z else e0 in
  let e := Z.max e1 (-1074) in
  let '(n, d) := scaled e in
  let m := (n / d)%Z in
  let r := (n mod d)%Z in
  let m' := match (2 * r ?= d)%Z with
            | Lt => m
            | Gt => (m + 1)%Z
            | Eq => if Z.even m then m else (m + 1)%Z
            end in
  if (971 <? e)%Z || ((e =? 971)%Z && (m' =? 2 ^ 53)%Z) then PrimFloat.infinity
  else Z.ldexp (PrimFloat.of_uint63 (Uint63.of_Z m')) e.

Definition fofDecimal (s : bool) (m : N) (e : Z) : float :=
  let v := match m with
           | N0 => PrimFloat.zero
           | Npos p =>
               if (0 <=? e)%Z then nearest (p * Z.to_pos (10 ^ e)) 1
               else nearest p (Z.to_pos (10 ^ (- e)))
           end in
  if s then PrimFloat.opp v else v.

(** [Math.max]: NaN if an argument is NaN, and +0 is larger than -0. *)
Definition fmax (a b : float) : float :=
  if PrimFloat.is_nan a || PrimFloat.is_nan b then PrimFloat.nan
  else if PrimFloat.ltb a b then b
  else if PrimFloat.ltb b a then a
  else if PrimFloat.get_sign a then b else a.

#[export] Instance float_JSNumber : JSNumber float := {|
  nan := PrimFloat.nan;
  infinity := fun s => if s then PrimFloat.neg_infinity else PrimFloat.infinity;
  ofDecimal := fofDecimal;
  add := PrimFloat.add;
  sub := PrimFloat.sub;
  mul := PrimFloat.mul;
  div := PrimFloat.div;
  neg := PrimFloat.opp;
  Math_max := fmax;
  isNaN := PrimFloat.is_nan;
  ltb := PrimFloat.ltb
|}.

(** ** Strings *)

(** Strings are sequences of 8-bit characters. White space is the ASCII
    part of the language's [WhiteSpace] and [LineTerminator]: tab, line
    feed, vertical tab, form feed, carriage return and space. *)
Definition isSpace (c : ascii) : bool :=
  let n := nat_of_ascii c in
  ((9 <=? n) && (n <=? 13))%nat || (n =? 32)%nat.

Definition isDigit (c : ascii) : bool :=
  let n := nat_of_ascii c in ((48 <=? n) && (n <=? 57))%nat.

(** The value of a digit in the radix (10 or 16), if it is one. *)
Definition digitValue (radix : N) (c : ascii) : option N :=
  let n := N_of_ascii c in
  let v := if ((48 <=? n) && (n <=? 57))%N then Some (n - 48)%N
           else if ((97 <=? n) && (n <=? 102))%N then Some (n - 87)%N
           else if ((65 <=? n) && (n <=? 70))%N then Some (n - 55)%N
           else None in
  match v with
  | Some d => if (d <? radix)%N then Some d else None
  | None => None
  end.

Definition isSome {A : Type} (o : option A) : bool :=
  match o with Some _ => true | None => false end.

Fixpoint trimStart (s : string) : string :=
  match s with
  | String c r => if isSpace c then trimStart r else s
  | EmptyString => EmptyString
  end.

Fixpoint trimEnd (s : string) : string :=
  match s with
  | String c r =>
      match trimEnd r with
      | EmptyString => if isSpace c then EmptyString else String c EmptyString
      | r' => String c r'
      end
  | EmptyString => EmptyString
  end.

Definition trim (s : string) : string := trimEnd (trimStart s).

(** [s.split(',')]: the pieces between the commas; never empty. *)
Fixpoint split_comma (s : string) : list string :=
  match s with
  | EmptyString => [EmptyString]
  | String c r =>
      if Ascii.eqb c "," then EmptyString :: split_comma r
      else match split_comma r with
           | p :: ps => String c p :: ps
           | [] => [String c EmptyString]
           end
  end.

(** The longest prefix of characters satisfying [f], and the rest. *)
Fixpoint span (f : ascii -> bool) (s : string) : string * string :=
  match s with
  | String c r =>
      if f c then let '(a, b) := span f r in (String c a, b)
      else (EmptyString, s)
  | EmptyString => (EmptyString, EmptyString)
  end.

Fixpoint filterString (f : ascii -> bool) (s : string) : string :=
  match s with
  | String c r => if f c then String c (filterString f r) else filterString f r
  | EmptyString => EmptyString
  end.

(** The number written by a string of digits of the radix. *)
Fixpoint digitsValue (radix : N) (acc : N) (s : string) : N :=
  match s with
  | String c r =>
      match digitValue radix c with
      | Some d => digitsValue radix (acc * radix + d)%N r
      | None => acc
      end
  | EmptyString => acc
  end.

Definition takeSign (s : string) : bool * string :=
  match s with
  | String "-" r => (true, r)
  | String "+" r => (false, r)
  | _ => (false, s)
  end.

Definition contains (needle hay : string) : bool :=
  match String.index 0 needle hay with Some _ => true | None => false end.

(** [parseInt(s)] without a radix: leading white space and a sign are
    skipped, a [0x] or [0X] prefix selects radix 16, and the longest run of
    digits is read; [None] is NaN. *)
Definition parseInt (s : string) : option Z :=
  let '(negative, s1) := takeSign (trimStart s) in
  let '(radix, s2) :=
    match s1 with
    | String "0" (String "x" r) | String "0" (String "X" r) => (16%N, r)
    | _ => (10%N, s1)
    end in
  let '(ds, _) := span (fun c => isSome (digitValue radix c)) s2 in
  match ds with
  | EmptyString => None
  | _ => let v := Z.of_N (digitsValue radix 0 ds) in
         Some (if negative then - v else v)%Z
  end.

Section Numbers.
Context {num : Type} {J : JSNumber num}.

(** The exponent part [e], [e+] or [e-] followed by digits, if the string
    starts with one; 0 otherwise. *)
Definition exponentPart (s : string) : Z :=
  match s with
  | String "e" r | String "E" r =>
      let '(negative, r1) := takeSign r in
      let '(ds, _) := span isDigit r1 in
      match ds with
      | EmptyString => 0
      | _ => let v := Z.of_N (digitsValue 10 0 ds) in
             if negative then - v else v
      end
  | _ => 0
  end%Z.

(** [parseFloat(s)]: the longest prefix of the trimmed string that is a
    [StrDecimalLiteral]; NaN when there is none. *)
Definition parseFloat (s : string) : num :=
  let '(negative, s1) := takeSign (trimStart s) in
  if String.prefix "Infinity" s1 then infinity negative
  else
    let '(ip, r1) := span isDigit s1 in
    let '(fp, r2) :=
      match r1 with
      | String "." r => span isDigit r
      | _ => (EmptyString, r1)
      end in
    match ip, fp with
    | EmptyString, EmptyString => nan
    | _, _ =>
        ofDecimal negative (digitsValue 10 0 (ip ++ fp))
          (exponentPart r2 - Z.of_nat (String.length fp))
    end.

(** A parsed integer as a number. *)
Definition numberOf (c : option Z) : num :=
  match c with
  | Some z => int z
  | None => nan
  end.

End Numbers.

(** The number of times [for (let i = 0; i < count; i++)] runs its body,
    which is also the length of [Array.from({ length: count }, f)]. *)
Definition iterations (count : option Z) : nat :=
  match count with
  | Some z => Z.to_nat z
  | None => 0
  end.

(** ** Values, template literals and the random source *)

Section Values.
Context {num : Type}.

(** The values the program substitutes into its templates: strings,
    numbers, [undefined] (an array read past its end), and the members
    every object inherits from [Object.prototype], named. *)
Inductive value : Type :=
  | VString (s : string)
  | VNumber (x : num)
  | VUndefined
  | VNative (name : string).

(** One part of an evaluated template literal: a chunk of its text, or a
    substituted value (which the language then converts to a string). *)
Inductive frag : Type :=
  | Lit (s : string)
  | Sub (v : value).

Definition elementAt (l : list num) (i : nat) : value :=
  match nth_error l i with
  | Some x => VNumber x
  | None => VUndefined
  end.

(** [Math.random()] takes the next value of the source. *)
Definition Rand (A : Type) : Type := (nat -> num) -> nat -> A * nat.

Definition ret {A : Type} (a : A) : Rand A := fun _ n => (a, n).

Definition bind {A B : Type} (c : Rand A) (k : A -> Rand B) : Rand B :=
  fun src n => let '(a, n') := c src n in k a src n'.

Definition Math_random : Rand num := fun src n => (src n, S n).

End Values.

Arguments value : clear implicits.
Arguments frag : clear implicits.
Arguments Rand : clear implicits.

Notation "x <- c ;; k" := (bind c (fun x => k))
  (at level 100, c at next level, right associativity).

(** The text of the templates is written with an apostrophe where the
    source has a double quote (the templates have no apostrophe of their
    own); [text] puts the double quotes back. *)
Fixpoint dq (s : string) : string :=
  match s with
  | String c r => String (if Ascii.eqb c "'" then ascii_of_nat 34 else c) (dq r)
  | EmptyString => EmptyString
  end.

Definition text {num : Type} (s : string) : frag num := Lit (dq s).

(** A [for] loop from 0 that pushes one element per round, and
    [Array.from({ length: n }, (_, i) => f i)]: the results of [f 0], ...,
    [f (n - 1)] in this order. *)
Fixpoint generateFrom {num A : Type} (f : nat -> Rand num A) (i n : nat)
  : Rand num (list A) :=
  match n with
  | O => ret []
  | S n' => x <- f i ;; xs <- generateFrom f (S i) n' ;; ret (x :: xs)
  end.

Definition generate {num A : Type} (n : nat) (f : nat -> Rand num A)
  : Rand num (list A) := generateFrom f 0 n.

(** [this.getAttribute(name) || fallback]: the fallback replaces [null]
    and the empty string. *)
Definition orElse (v : option string) (fallback : string) : string :=
  match v with
  | Some (String _ _ as s) => s
  | _ => fallback
  end.

(** The own properties of an object literal looked up by key, then the
    members of [Object.prototype], which every object literal inherits. *)
Definition Object_prototype : list string :=
  [ "constructor"; "hasOwnProperty"; "isPrototypeOf"; "propertyIsEnumerable";
    "toLocaleString"; "toString"; "valueOf"; "__proto__";
    "__defineGetter__"; "__defineSetter__"; "__lookupGetter__";
    "__lookupSetter__" ].

Fixpoint ownProperty (o : list (string * string)) (key : string) : option string :=
  match o with
  | (k, v) :: r => if String.eqb k key then Some v else ownProperty r key
  | [] => None
  end.

Definition getProperty {num : Type} (o : list (string * string)) (key : string)
  : value num :=
  match ownProperty o key with
  | Some v => VString v
  | None => if existsb (String.eqb key) Object_prototype then VNative key
            else VUndefined
  end.

(** [a || b] *)
Definition truthy {num : Type} `{JSNumber num} (v : value num) : bool :=
  match v with
  | VString s => negb (String.eqb s EmptyString)
  | VNumber x => ltb x (int 0) || ltb (int 0) x
  | VUndefined => false
  | VNative _ => true
  end.

Definition or {num : Type} `{JSNumber num} (a b : value num) : value num :=
  if truthy a then a else b.

(** The maximal runs of digits and of other characters of a string, in
    order; the flag tells the runs of digits. *)
Fixpoint runs (s : string) : list (bool * string) :=
  match s with
  | EmptyString => []
  | String c r =>
      let d := isDigit c in
      match runs r with
      | (d', t) :: rest =>
          if Bool.eqb d d' then (d, String c t) :: rest
          else (d, String c EmptyString) :: (d', t) :: rest
      | [] => [(d, String c EmptyString)]
      end
  end.

(** [s.replace(/(\d+)/g, m => f(m).toString())]: every maximal run of
    digits is replaced by the number [f] gives for it; the text between
    the runs stays. *)
Definition replaceDigits {num : Type} (f : string -> num) (s : string)
  : list (frag num) :=
  map (fun '(digits, t) => if digits : bool then Sub (VNumber (f t))
                           else Sub (VString t))
      (runs s).

Abbreviation attributes := (gmap string string).

Definition getAttribute (this : attributes) (name : string) : option string :=
  this !! name.

Record waveSection {num : Type} : Type := {
  html : list (frag num);
  styles : list (frag num)
}.
Arguments waveSection : clear implicits.

(** ** The element and its host *)

(** The state of an element: its attributes and its shadow root, which is
    [None] until [attachShadow] creates it and holds from then on the
    markup last assigned to its [innerHTML]. *)
Record element {num : Type} : Type := {
  attrs : attributes;
  shadowRoot : option (list (frag num))
}.
Arguments element : clear implicits.

(** [this.attachShadow({ mode: 'open' })] *)
Definition attachShadow {num : Type} (this : element num) : element num :=
  {| attrs := attrs this; shadowRoot := Some [] |}.

(** [this.shadowRoot!.innerHTML = out]: the assignment throws, which is
    [None], when there is no shadow root. *)
Definition setInnerHTML {num : Type} (this : element num) (out : list (frag num))
  : option (element num) :=
  match shadowRoot this with
  | Some _ => Some {| attrs := attrs this; shadowRoot := Some out |}
  | None => None
  end.

(** What a host does to an element: it sets or removes an attribute, or
    connects the element to a document. *)
Inductive event : Type :=
  | SetAttribute (name value : string)
  | RemoveAttribute (name : string)
  | Connect.

Section Host.
Context {num : Type}.
Variable observedAttributes : list string.
Variable connectedCallback : element num -> Rand num (option (element num)).
Variable attributeChangedCallback : element num -> Rand num (option (element num)).

Definition observed (name : string) : bool :=
  existsb (String.eqb name) observedAttributes.

(** The reactions of a custom element: a change of an attribute is
    reported through [attributeChangedCallback] when the attribute is
    observed, also when the new value is the old one; a connection is
    reported through [connectedCallback]. *)
Definition dispatch (e : event) (this : element num)
  : Rand num (option (element num)) :=
  match e with
  | SetAttribute name v =>
      let this' := {| attrs := <[name := v]> (attrs this);
                      shadowRoot := shadowRoot this |} in
      if observed name then attributeChangedCallback this' else ret (Some this')
  | RemoveAttribute name =>
      let this' := {| attrs := delete name (attrs this);
                      shadowRoot := shadowRoot this |} in
      if observed name then attributeChangedCallback this' else ret (Some this')
  | Connect => connectedCallback this
  end.

(** A sequence of events, stopped by the first callback that throws. *)
Fixpoint dispatchAll (es : list event) (this : element num)
  : Rand num (option (element num)) :=
  match es with
  | [] => ret (Some this)
  | e :: rest =>
      r <- dispatch e this ;;
      match r with
      | Some this' => dispatchAll rest this'
      | None => ret None
      end
  end.
End Host.

(** ** src/index.ts *)

Module Index.
Section WithNumbers.
Context {num : Type} {J : JSNumber num}.

Definition waveColor (this : attributes) : string :=
  orElse (getAttribute this "wave-color") "#1A237E".

Definition backgroundColor (this : attributes) : string :=
  orElse (getAttribute this "background-color") "transparent".

Definition height (this : attributes) : string :=
  orElse (getAttribute this "height") EmptyString.

Definition speed (this : attributes) : num :=
  parseFloat (orElse (getAttribute this "speed") "1").

Definition opacityRange (this : attributes) : list num :=
  let range := orElse (getAttribute this "opacity-range") "0.3,0.9" in
  map (fun v => parseFloat (trim v)) (split_comma range).

Definition waveCount (this : attributes) : option Z :=
  parseInt (orElse (getAttribute this "wave-count") "4").

Definition animationStyle (this : attributes) : string :=
  orElse (getAttribute this "animation-style") "smooth".

Definition position (this : attributes) : string :=
  orElse (getAttribute this "position") "top".

Definition waveHeight (this : attributes) : string :=
  orElse (getAttribute this "wave-height") "100px".

Definition contentPadding (this : attributes) : string :=
  orElse (getAttribute this "content-padding") "20px".

Definition contentBackgroundColor (this : attributes) : string :=
  orElse (getAttribute this "content-background-color") (waveColor this).

Definition responsive (this : attributes) : bool :=
  match getAttribute this "responsive" with
  | Some s => negb (String.eqb s "false")
  | None => true
  end.

Record heights : Type := {
  base : string;
  mobile : list (frag num);
  tablet : list (frag num);
  desktop : string
}.

Definition getResponsiveWaveHeight (this : attributes) : string + heights :=
  if negb (responsive this) then inl (waveHeight this)
  else
    let baseHeight : num := parseFloat (waveHeight this) in
    let unit :=
      filterString (fun c => negb (isDigit c || Ascii.eqb c ".")) (waveHeight this) in
    inr {| base := waveHeight this;
           mobile := [Sub (VNumber (Math_max (mul baseHeight (lit 6 (-1))) (int 40)));
                      Sub (VString unit)];
           tablet := [Sub (VNumber (Math_max (mul baseHeight (lit 8 (-1))) (int 60)));
                      Sub (VString unit)];
           desktop := waveHeight this |}.

Definition getAnimationDurations (this : attributes) : Rand num (list num) :=
  let baseSpeed := speed this in
  let count := waveCount this in
  generate (iterations count) (fun i =>
    let baseDuration := add (int 15) (mul (int (Z.of_nat i)) (int 8)) in
    r <- Math_random ;;
    let randomVariation := mul (sub r (lit 5 (-1))) (int 10) in
    let finalDuration := div (add baseDuration randomVariation) baseSpeed in
    ret (Math_max (div (int 10) baseSpeed) finalDuration)).

Definition getAnimationDelays (this : attributes) : Rand num (list num) :=
  let count := waveCount this in
  generate (iterations count) (fun i =>
    r <- Math_random ;;
    let randomDelay := neg (mul r (int 30)) in
    ret randomDelay).

(** A missing element of the destructured range is [undefined], which
    the subtraction and the addition below turn into NaN. *)
Definition getOpacities (this : attributes) : list num :=
  let range := opacityRange this in
  let minOpacity := nth 0 range nan in
  let maxOpacity := nth 1 range nan in
  let count := waveCount this in
  let step := div (sub maxOpacity minOpacity) (sub (numberOf count) (int 1)) in
  map (fun i => add minOpacity (mul step (int (Z.of_nat i))))
      (seq 0 (iterations count)).

Definition getEasing (this : attributes) : value num :=
  let styles :=
    [ ("smooth", "cubic-bezier(.4,0,.2,1)");
      ("linear", "linear");
      ("ease-in-out", "ease-in-out");
      ("bouncy", "cubic-bezier(.68,-0.55,.265,1.55)");
      ("gentle", "cubic-bezier(.25,.46,.45,.94)") ] in
  or (getProperty styles (animationStyle this)) (getProperty styles "smooth").

Definition createWaveSection (this : attributes) (isBottom : bool)
  : Rand num (waveSection num) :=
  durations <- getAnimationDurations this ;;
  delays <- getAnimationDelays this ;;
  let opacities := getOpacities this in
  let transformRotation :=
    if isBottom then "transform: rotate(180deg);" else EmptyString in
  elements <- generate (iterations (waveCount this)) (fun i =>
    r1 <- Math_random ;;
    let randomX := add (int 48) (mul (sub r1 (lit 5 (-1))) (int 20)) in
    r2 <- Math_random ;;
    let randomY :=
      add (mul (int (Z.of_nat i)) (int 2)) (mul (sub r2 (lit 5 (-1))) (int 4)) in
    ret [text "<use xlink:href='#gentle-wave' x='";
         Sub (VNumber randomX);
         text "' y='";
         Sub (VNumber randomY);
         text "' />"]) ;;
  let waveElements := concat elements in
  let waveStyles := concat (map (fun i =>
    let animationName : list (frag num) :=
      [text "wave-animation-";
       Sub (VNumber (int (Z.of_nat i mod 4 + 1)))] in
    let sectionClass := if isBottom then "bottom-waves" else "top-waves" in
    ([text "
        .";
     Sub (VString sectionClass);
     text " .parallax use:nth-child(";
     Sub (VNumber (int (Z.of_nat i + 1)));
     text ") {
          fill: ";
     Sub (VString (waveColor this));
     text ";
          opacity: ";
     Sub (elementAt opacities i);
     text ";
          animation: "]
    ++ animationName
    ++ [text " ";
     Sub (elementAt durations i);
     text "s ";
     Sub (getEasing this);
     text " infinite;
          animation-delay: ";
     Sub (elementAt delays i);
     text "s;
        }
      "])%list) (seq 0 (iterations (waveCount this)))) in
  ret {| html :=
           ([text "
        <div class='wave-section ";
            Sub (VString (if isBottom then "bottom-waves" else "top-waves"));
            text "'>
          <svg class='waves' xmlns='http://www.w3.org/2000/svg' xmlns:xlink='http://www.w3.org/1999/xlink'
          viewBox='0 24 150 28' preserveAspectRatio='none' style='";
            Sub (VString transformRotation);
            text "'>
            <defs>
              <path id='gentle-wave' d='M-320 44c30 0 58-18 88-18s 58 18 88 18 58-18 88-18 58 18 88 18 58-18 88-18s 58 18 88 18 58-18 88-18 58 18 88 18 v44h-704z' />
            </defs>
            <g class='parallax'>
              "]
           ++ waveElements
           ++ [text "
            </g>
          </svg>
        </div>
      "])%list;
         styles := waveStyles |}.

(** The breakpoint rules, or the empty string. *)
Definition responsiveStyles (this : attributes)
  (responsiveHeights : string + heights) : list (frag num) :=
  match responsiveHeights with
  | inr h =>
      if responsive this then
        ([text "
          /* Mobile styles */
          @media (max-width: 768px) {
            .wave-section {
              height: "]
        ++ mobile h
        ++ [text ";
            }
            
            .content-section {
              padding: "]
        ++ replaceDigits (fun match_ => Math_max (mul (numberOf (parseInt match_)) (lit 7 (-1))) (int 10)) (contentPadding this)
        ++ [text ";
            }
          }
          
          /* Tablet styles */
          @media (min-width: 769px) and (max-width: 1024px) {
            .wave-section {
              height: "]
        ++ tablet h
        ++ [text ";
            }
          }
          
          /* Small mobile styles */
          @media (max-width: 480px) {
            .wave-section {
              height: "]
        ++ mobile h
        ++ [text ";
            }
            
            .content-section {
              padding: "]
        ++ replaceDigits (fun match_ => Math_max (mul (numberOf (parseInt match_)) (lit 5 (-1))) (int 8)) (contentPadding this)
        ++ [text ";
            }
          }
        "])%list
      else []
  | inl _ => []
  end.

(** [render] returns what it assigns to [this.shadowRoot.innerHTML]. *)
Definition render (this : attributes) : Rand num (list (frag num)) :=
  let position := position this in
  topWaves <-
    (if String.eqb position "top" || String.eqb position "both"
     then createWaveSection this false
     else ret {| html := []; styles := [] |}) ;;
  bottomWaves <-
    (if String.eqb position "bottom" || String.eqb position "both"
     then createWaveSection this true
     else ret {| html := []; styles := [] |}) ;;
  let contentSection : list (frag num) :=
    if String.eqb position "both" then
      [text "
        <div class='content-section'>
          <slot></slot>
        </div>
      "]
    else [] in
  let containerHeight :=
    if String.eqb position "both" then "auto" else height this in
  let responsiveHeights := getResponsiveWaveHeight this in
  ret ([text "
      <style>
        :host {
          display: block;
          width: 100%;
        }
        
        .container {
          background: ";
       Sub (VString (backgroundColor this));
       text ";
          width: 100%;
          height: ";
       Sub (VString containerHeight);
       text ";
          min-height: ";
       Sub (VString (if String.eqb position "both" then "auto" else "100px"));
       text ";
          overflow: hidden;
          display: flex;
          flex-direction: column;
        }

        .wave-section {
          width: 100%;
          height: ";
       Sub (VString (match responsiveHeights with inl s => s | inr h => desktop h end));
       text ";
          overflow: hidden;
          flex-shrink: 0;
        }

        .content-section {
          flex: 1;
          padding: ";
       Sub (VString (contentPadding this));
       text ";
          background: ";
       Sub (VString (contentBackgroundColor this));
       text ";
          display: flex;
          flex-direction: column;
          justify-content: center;
          align-items: center;
          min-height: 0;
        }

        .waves {
          position: relative;
          display: block;
          width: 100%;
          height: 100%;
          transform: translateZ(0);
          will-change: transform;
        }

        @keyframes wave-animation-1 {
          0% { transform: translateX(-90px) translateZ(0); }
          100% { transform: translateX(85px) translateZ(0); }
        }
        @keyframes wave-animation-2 {
          0% { transform: translateX(-85px) translateZ(0); }
          100% { transform: translateX(90px) translateZ(0); }
        }
        @keyframes wave-animation-3 {
          0% { transform: translateX(-100px) translateZ(0); }
          100% { transform: translateX(75px) translateZ(0); }
        }
        @keyframes wave-animation-4 {
          0% { transform: translateX(-80px) translateZ(0); }
          100% { transform: translateX(95px) translateZ(0); }
        }

        .parallax use {
          will-change: transform;
          transform: translateZ(0);
          backface-visibility: hidden;
        }

        "]
      ++ responsiveStyles this responsiveHeights
      ++ [text "

        "]
      ++ styles topWaves
      ++ [text "
        "]
      ++ styles bottomWaves
      ++ [text "
      </style>
      
      <div class='container'>
        "]
      ++ html topWaves
      ++ [text "
        "]
      ++ contentSection
      ++ [text "
        "]
      ++ html bottomWaves
      ++ [text "
      </div>
    "])%list.

(** The constructor, the observed attributes and the two callbacks. *)
Definition constructor (this : element num) : element num := attachShadow this.

Definition observedAttributes : list string :=
  [ "wave-color"; "background-color"; "height"; "speed"; "opacity-range";
    "wave-count"; "animation-style"; "position"; "wave-height";
    "content-padding"; "content-background-color"; "responsive" ].

Definition connectedCallback (this : element num)
  : Rand num (option (element num)) :=
  out <- render (attrs this) ;; ret (setInnerHTML this out).

Definition attributeChangedCallback (this : element num)
  : Rand num (option (element num)) :=
  if isSome (shadowRoot this) then
    out <- render (attrs this) ;; ret (setInnerHTML this out)
  else ret (Some this).

End WithNumbers.
End Index.

(** ** test.ts *)

Module Test.
Section WithNumbers.
Context {num : Type} {J : JSNumber num}.

Definition waveColor (this : attributes) : string :=
  orElse (getAttribute this "wave-color") "#1A237E".

Definition backgroundColor (this : attributes) : string :=
  orElse (getAttribute this "background-color") "transparent".

Definition height (this : attributes) : string :=
  orElse (getAttribute this "height") EmptyString.

Definition speed (this : attributes) : num :=
  parseFloat (orElse (getAttribute this "speed") "1").

Definition opacityRange (this : attributes) : list num :=
  let range := orElse (getAttribute this "opacity-range") "0.3,0.9" in
  map (fun v => parseFloat (trim v)) (split_comma range).

Definition waveCount (this : attributes) : option Z :=
  parseInt (orElse (getAttribute this "wave-count") "4").

Definition animationStyle (this : attributes) : string :=
  orElse (getAttribute this "animation-style") "smooth".

Definition position (this : attributes) : string :=
  orElse (getAttribute this "position") "top".

Definition waveHeight (this : attributes) : string :=
  orElse (getAttribute this "wave-height") "100px".

Definition contentPadding (this : attributes) : string :=
  orElse (getAttribute this "content-padding") "20px".

Definition contentBackgroundColor (this : attributes) : string :=
  orElse (getAttribute this "content-background-color") (waveColor this).

Definition getAnimationDurations (this : attributes) : Rand num (list num) :=
  let baseSpeed := speed this in
  let count := waveCount this in
  generate (iterations count) (fun i =>
    let baseDuration := add (int 15) (mul (int (Z.of_nat i)) (int 8)) in
    r <- Math_random ;;
    let randomVariation := mul (sub r (lit 5 (-1))) (int 10) in
    let finalDuration := div (add baseDuration randomVariation) baseSpeed in
    ret (Math_max (div (int 10) baseSpeed) finalDuration)).

Definition getAnimationDelays (this : attributes) : Rand num (list num) :=
  let count := waveCount this in
  generate (iterations count) (fun i =>
    r <- Math_random ;;
    let randomDelay := neg (mul r (int 30)) in
    ret randomDelay).

(** A missing element of the destructured range is [undefined], which
    the subtraction and the addition below turn into NaN. *)
Definition getOpacities (this : attributes) : list num :=
  let range := opacityRange this in
  let minOpacity := nth 0 range nan in
  let maxOpacity := nth 1 range nan in
  let count := waveCount this in
  let step := div (sub maxOpacity minOpacity) (sub (numberOf count) (int 1)) in
  map (fun i => add minOpacity (mul step (int (Z.of_nat i))))
      (seq 0 (iterations count)).

Definition getEasing (this : attributes) : value num :=
  let styles :=
    [ ("smooth", "cubic-bezier(.4,0,.2,1)");
      ("linear", "linear");
      ("ease-in-out", "ease-in-out");
      ("bouncy", "cubic-bezier(.68,-0.55,.265,1.55)");
      ("gentle", "cubic-bezier(.25,.46,.45,.94)") ] in
  or (getProperty styles (animationStyle this)) (getProperty styles "smooth").

Definition createWaveSection (this : attributes) (isBottom : bool)
  : Rand num (waveSection num) :=
  durations <- getAnimationDurations this ;;
  delays <- getAnimationDelays this ;;
  let opacities := getOpacities this in
  let transformRotation :=
    if isBottom then "transform: rotate(180deg);" else EmptyString in
  let waveHeightValue : num := parseFloat (waveHeight this) in
  let waveHeightUnit :=
    orElse (Some (filterString (fun c => negb (isDigit c || Ascii.eqb c "."))
                    (waveHeight this))) "px" in
  let viewBoxHeight := Math_max (int 20) (mul waveHeightValue (lit 3 (-1))) in
  let viewBoxWidth := Math_max (int 100) (mul viewBoxHeight (lit 375 (-2))) in
  let waveBaseline := mul viewBoxHeight (lit 7 (-1)) in
  let waveAmplitude := Math_max (int 8) (mul viewBoxHeight (lit 25 (-2))) in
  elements <- generate (iterations (waveCount this)) (fun i =>
    r1 <- Math_random ;;
    let randomX :=
      add (mul viewBoxWidth (lit 32 (-2)))
          (mul (sub r1 (lit 5 (-1))) (mul viewBoxWidth (lit 13 (-2)))) in
    r2 <- Math_random ;;
    let randomY :=
      add (mul (int (Z.of_nat i)) (mul viewBoxHeight (lit 25 (-3))))
          (mul (sub r2 (lit 5 (-1))) (mul viewBoxHeight (lit 5 (-2)))) in
    ret [text "<use xlink:href='#gentle-wave' x='";
         Sub (VNumber randomX);
         text "' y='";
         Sub (VNumber randomY);
         text "' />"]) ;;
  let waveElements := concat elements in
  let waveStyles := concat (map (fun i =>
    let animationName : list (frag num) :=
      [text "wave-animation-";
       Sub (VNumber (int (Z.of_nat i mod 4 + 1)))] in
    let sectionClass := if isBottom then "bottom-waves" else "top-waves" in
    ([text "
        .";
     Sub (VString sectionClass);
     text " .parallax use:nth-child(";
     Sub (VNumber (int (Z.of_nat i + 1)));
     text ") {
          fill: ";
     Sub (VString (waveColor this));
     text ";
          opacity: ";
     Sub (elementAt opacities i);
     text ";
          animation: "]
    ++ animationName
    ++ [text " ";
     Sub (elementAt durations i);
     text "s ";
     Sub (getEasing this);
     text " infinite;
          animation-delay: ";
     Sub (elementAt delays i);
     text "s;
        }
      "])%list) (seq 0 (iterations (waveCount this)))) in
  ret {| html :=
           ([text "
        <div class='wave-section ";
            Sub (VString (if isBottom then "bottom-waves" else "top-waves"));
            text "'>
          <svg class='waves' xmlns='http://www.w3.org/2000/svg' xmlns:xlink='http://www.w3.org/1999/xlink'
          viewBox='0 0 ";
            Sub (VNumber viewBoxWidth);
            text " ";
            Sub (VNumber viewBoxHeight);
            text "' preserveAspectRatio='none' style='";
            Sub (VString transformRotation);
            text "'>
            <defs>
              <path id='gentle-wave' d='M-";
            Sub (VNumber (mul viewBoxWidth (lit 213 (-2))));
            text " ";
            Sub (VNumber waveBaseline);
            text "c";
            Sub (VNumber (mul viewBoxWidth (lit 2 (-1))));
            text " 0 ";
            Sub (VNumber (mul viewBoxWidth (lit 39 (-2))));
            text "-";
            Sub (VNumber waveAmplitude);
            text " ";
            Sub (VNumber (mul viewBoxWidth (lit 59 (-2))));
            text "-";
            Sub (VNumber waveAmplitude);
            text "s ";
            Sub (VNumber (mul viewBoxWidth (lit 39 (-2))));
            text " ";
            Sub (VNumber waveAmplitude);
            text " ";
            Sub (VNumber (mul viewBoxWidth (lit 59 (-2))));
            text " ";
            Sub (VNumber waveAmplitude);
            text " ";
            Sub (VNumber (mul viewBoxWidth (lit 39 (-2))));
            text "-";
            Sub (VNumber waveAmplitude);
            text " ";
            Sub (VNumber (mul viewBoxWidth (lit 59 (-2))));
            text "-";
            Sub (VNumber waveAmplitude);
            text " ";
            Sub (VNumber (mul viewBoxWidth (lit 39 (-2))));
            text " ";
            Sub (VNumber waveAmplitude);
            text " ";
            Sub (VNumber (mul viewBoxWidth (lit 59 (-2))));
            text " ";
            Sub (VNumber waveAmplitude);
            text " ";
            Sub (VNumber (mul viewBoxWidth (lit 39 (-2))));
            text "-";
            Sub (VNumber waveAmplitude);
            text " ";
            Sub (VNumber (mul viewBoxWidth (lit 59 (-2))));
            text "-";
            Sub (VNumber waveAmplitude);
            text "s ";
            Sub (VNumber (mul viewBoxWidth (lit 39 (-2))));
            text " ";
            Sub (VNumber waveAmplitude);
            text " ";
            Sub (VNumber (mul viewBoxWidth (lit 59 (-2))));
            text " ";
            Sub (VNumber waveAmplitude);
            text " ";
            Sub (VNumber (mul viewBoxWidth (lit 39 (-2))));
            text "-";
            Sub (VNumber waveAmplitude);
            text " ";
            Sub (VNumber (mul viewBoxWidth (lit 59 (-2))));
            text "-";
            Sub (VNumber waveAmplitude);
            text " ";
            Sub (VNumber (mul viewBoxWidth (lit 39 (-2))));
            text " ";
            Sub (VNumber waveAmplitude);
            text " ";
            Sub (VNumber (mul viewBoxWidth (lit 59 (-2))));
            text " ";
            Sub (VNumber waveAmplitude);
            text " v";
            Sub (VNumber (sub viewBoxHeight waveBaseline));
            text "h-";
            Sub (VNumber (mul viewBoxWidth (lit 469 (-2))));
            text "z' />
            </defs>
            <g class='parallax'>
              "]
           ++ waveElements
           ++ [text "
            </g>
          </svg>
        </div>
      "])%list;
         styles := waveStyles |}.

(** [render] returns what it assigns to [this.shadowRoot.innerHTML]. *)
Definition render (this : attributes) : Rand num (list (frag num)) :=
  let position := position this in
  topWaves <-
    (if String.eqb position "top" || String.eqb position "both"
     then createWaveSection this false
     else ret {| html := []; styles := [] |}) ;;
  bottomWaves <-
    (if String.eqb position "bottom" || String.eqb position "both"
     then createWaveSection this true
     else ret {| html := []; styles := [] |}) ;;
  let contentSection : list (frag num) :=
    if String.eqb position "both" then
      [text "
        <div class='content-section'>
          <slot></slot>
        </div>
      "]
    else [] in
  let containerHeight :=
    if String.eqb position "both" then "auto" else height this in
  ret ([text "
      <style>
        :host {
          display: block;
          width: 100%;
        }
        
        .container {
          background: ";
       Sub (VString (backgroundColor this));
       text ";
          width: 100%;
          height: ";
       Sub (VString containerHeight);
       text ";
          min-height: ";
       Sub (VString (if String.eqb position "both" then "auto" else "100px"));
       text ";
          overflow: hidden;
          display: flex;
          flex-direction: column;
        }

        .wave-section {
          width: 100%;
          height: ";
       Sub (VString (waveHeight this));
       text ";
          overflow: hidden;
          flex-shrink: 0;
        }

        .content-section {
          flex: 1;
          padding: ";
       Sub (VString (contentPadding this));
       text ";
          background: ";
       Sub (VString (contentBackgroundColor this));
       text ";
          display: flex;
          flex-direction: column;
          justify-content: center;
          align-items: center;
          min-height: 0;
        }

        .waves {
          position: relative;
          display: block;
          width: 100%;
          height: 100%;
          transform: translateZ(0);
          will-change: transform;
        }

        @keyframes wave-animation-1 {
          0% { transform: translateX(-90px) translateZ(0); }
          100% { transform: translateX(85px) translateZ(0); }
        }
        @keyframes wave-animation-2 {
          0% { transform: translateX(-85px) translateZ(0); }
          100% { transform: translateX(90px) translateZ(0); }
        }
        @keyframes wave-animation-3 {
          0% { transform: translateX(-100px) translateZ(0); }
          100% { transform: translateX(75px) translateZ(0); }
        }
        @keyframes wave-animation-4 {
          0% { transform: translateX(-80px) translateZ(0); }
          100% { transform: translateX(95px) translateZ(0); }
        }

        .parallax use {
          will-change: transform;
          transform: translateZ(0);
          backface-visibility: hidden;
        }

        "]
      ++ styles topWaves
      ++ [text "
        "]
      ++ styles bottomWaves
      ++ [text "
      </style>
      
      <div class='container'>
        "]
      ++ html topWaves
      ++ [text "
        "]
      ++ contentSection
      ++ [text "
        "]
      ++ html bottomWaves
      ++ [text "
      </div>
    "])%list.

(** The constructor, the observed attributes and the two callbacks. *)
Definition constructor (this : element num) : element num := attachShadow this.

Definition observedAttributes : list string :=
  [ "wave-color"; "background-color"; "height"; "speed"; "opacity-range";
    "wave-count"; "animation-style"; "position"; "wave-height";
    "content-padding"; "content-background-color" ].

Definition connectedCallback (this : element num)
  : Rand num (option (element num)) :=
  out <- render (attrs this) ;; ret (setInnerHTML this out).

Definition attributeChangedCallback (this : element num)
  : Rand num (option (element num)) :=
  if isSome (shadowRoot this) then
    out <- render (attrs this) ;; ret (setInnerHTML this out)
  else ret (Some this).

End WithNumbers.
End Test.

(** * Vocabulary of the properties *)

(** ** Generators *)

Section Generated.
Context {num : Type} {J : JSNumber num}.

(** The duration of wave [i] when the draw is [r]. *)
Definition duration (speed : num) (i : nat) (r : num) : num :=
  Math_max (div (int 10) speed)
    (div (add (add (int 15) (mul (int (Z.of_nat i)) (int 8)))
              (mul (sub r (lit 5 (-1))) (int 10)))
         speed).

End Generated.



(** The documented animation styles. *)
Definition documented : list string :=
  ["smooth"; "linear"; "ease-in-out"; "bouncy"; "gentle"].

(** ** Reading an evaluated template *)

Section Scanning.
Context {num B : Type}.
Variable pick : frag num -> option (frag num) -> list B.

(** What [pick] finds at each fragment, given the fragment after it. *)
Fixpoint scan (out : list (frag num)) : list B :=
  match out with
  | [] => []
  | f :: rest => (pick f (List.hd_error rest) ++ scan rest)%list
  end.

(** A fragment at which [pick] does not look ahead. *)
Definition blind (f : frag num) : Prop := forall nx, pick f nx = pick f None.

(** A fragment at which [pick] finds nothing. *)
Definition quiet (f : frag num) : Prop := forall nx, pick f nx = [].

(** A list whose last fragment, if any, is blind: what [pick] finds in it
    does not depend on what follows it. *)
Definition closed (l : list (frag num)) : Prop :=
  match List.last (map Some l) None with
  | Some f => blind f
  | None => True
  end.
End Scanning.

Section Reading.
Context {num : Type}.

(** The sections of the rendered markup. A wave section opens with the
    chunk that ends in the [wave-section] class, followed by the
    substituted position class; the content section is one chunk. *)
Inductive part : Type := TopWaves | BottomWaves | ContentSlot.

Definition pickSection (f : frag num) (nx : option (frag num)) : list part :=
  match f with
  | Lit s =>
      ((if contains (dq "<div class='content-section'>") s
        then [ContentSlot] else [])
       ++
       (if contains (dq "<div class='wave-section ") s then
          match nx with
          | Some (Sub (VString c)) =>
              if String.eqb c "top-waves" then [TopWaves]
              else if String.eqb c "bottom-waves" then [BottomWaves]
              else []
          | _ => []
          end
        else []))%list
  | Sub _ => []
  end.


(** The chunks of template text that contain [needle]. *)
Definition pickLit (needle : string) (f : frag num) (_ : option (frag num))
  : list string :=
  match f with
  | Lit s => if contains needle s then [s] else []
  | Sub _ => []
  end.

(** The [@media] rules of a style sheet and the [<use>] references of a
    wave section, counted by the chunks of template text they start
    in. *)
Definition mediaRules (out : list (frag num)) : nat :=
  List.length (scan (pickLit "@media") out).

Definition waveReferences (out : list (frag num)) : nat :=
  List.length (scan (pickLit "<use ") out).

(** The duration in each [animation:] declaration: the value substituted
    just before the chunk [s ] that gives it its unit. *)
Definition pickDuration (f : frag num) (nx : option (frag num))
  : list (value num) :=
  match f, nx with
  | Sub v, Some (Lit s) => if String.eqb s "s " then [v] else []
  | _, _ => []
  end.

Definition animationDurations (out : list (frag num)) : list (value num) :=
  scan pickDuration out.

(** Nothing precedes a unit chunk in a list without one. *)
Definition calm (f : frag num) : Prop :=
  match f with
  | Lit s => String.eqb s "s " = false
  | Sub _ => True
  end.

(** A fragment that is a substituted value. *)
Definition substituted (f : frag num) : Prop :=
  match f with Sub _ => True | Lit _ => False end.

End Reading.

(** ** Reading the values of a template *)

Definition endsWith (suffix s : string) : bool :=
  let n := String.length s in
  let m := String.length suffix in
  (m <=? n)%nat && String.eqb (substring (n - m) m s) suffix.

Section Markers.
Context {num : Type}.

(** The value substituted right after a chunk of template text that ends
    in [marker]. *)
Definition pickAfter (marker : string) (f : frag num) (nx : option (frag num))
  : list (value num) :=
  match f, nx with
  | Lit s, Some (Sub v) => if endsWith marker s then [v] else []
  | _, _ => []
  end.

Definition valuesAfter (marker : string) (out : list (frag num))
  : list (value num) :=
  scan (pickAfter marker) out.

(** A fragment after which [pickAfter marker] finds nothing. *)
Definition unmarked (marker : string) (f : frag num) : Prop :=
  match f with
  | Lit s => endsWith marker s = false
  | Sub _ => True
  end.

(** A fragment that is not a substituted [undefined]. *)
Definition defined (f : frag num) : Prop := f <> Sub VUndefined.
End Markers.

(** The number of wave sections [render] creates for a position. *)
Definition waveSections (position : string) : nat :=
  ((if String.eqb position "top" || String.eqb position "both" then 1 else 0)
   + (if String.eqb position "bottom" || String.eqb position "both" then 1 else 0))%nat.

(** * Properties *)

(** ** Decimal literals in binary64 *)

(** The conversion agrees with the values of binary64: 0.3 and 0.9 are
    rounded to the nearest value, a tie goes to the even significand, the
    smallest subnormal number is reached, and large and small numbers go
    to infinity and to zero. *)
Example fofDecimal_three_tenths :
  fofDecimal false 3 (-1) = 0x1.3333333333333p-2%float.
Proof. reflexivity. Qed.

Example fofDecimal_nine_tenths :
  fofDecimal false 9 (-1) = 0x1.ccccccccccccdp-1%float.
Proof. reflexivity. Qed.

Example fofDecimal_tie_to_even :
  fofDecimal false 9007199254740993 0 = 9007199254740992%float /\
  fofDecimal false 9007199254740995 0 = 9007199254740996%float.
Proof. split; reflexivity. Qed.

Example fofDecimal_extremes :
  fofDecimal false 5 (-324) = 0x1p-1074%float /\
  fofDecimal false 2 (-324) = 0%float /\
  fofDecimal false 1 400 = PrimFloat.infinity /\
  fofDecimal true 0 0 = (-0)%float.
Proof. repeat split; reflexivity. Qed.

(** ** The loop combinator *)

Lemma generateFrom_length {num A : Type} (f : nat -> Rand num A) src n i k :
  List.length (fst (generateFrom f i n src k)) = n.
Proof.
  revert i k; induction n as [|n IH]; intros i k; [reflexivity|].
  cbn [generateFrom]. unfold bind, ret.
  destruct (f i src k) as [x k1].
  specialize (IH (S i) k1).
  destruct (generateFrom f (S i) n src k1) as [xs k2]; cbn in *.
  now rewrite IH.
Qed.

(** A body that draws once per round sees the draws [k], [k + 1], ... *)
Lemma generateFrom_one_draw {num A : Type} (g : nat -> num -> A) src n i k :
  generateFrom (fun j => r <- Math_random ;; ret (g j r)) i n src k
  = (map (fun j => g (i + j)%nat (src (k + j)%nat)) (seq 0 n), (k + n)%nat).
Proof.
  revert i k; induction n as [|n IH]; intros i k.
  - cbn. now rewrite Nat.add_0_r.
  - cbn [generateFrom]. unfold bind at 1. unfold bind at 1.
    unfold Math_random at 1, ret at 1.
    unfold bind at 1. rewrite IH. unfold ret.
    cbn [seq map]. rewrite <- seq_shift, map_map, !Nat.add_0_r.
    f_equal; [f_equal|lia].
    apply map_ext; intros j. now rewrite !Nat.add_succ_r.
Qed.

Lemma generate_one_draw {num A : Type} (g : nat -> num -> A) src n k :
  generate n (fun j => r <- Math_random ;; ret (g j r)) src k
  = (map (fun j => g j (src (k + j)%nat)) (seq 0 n), (k + n)%nat).
Proof. unfold generate. now rewrite generateFrom_one_draw. Qed.


(** ** Exact numbers *)





(** ** The generators in closed form *)

Section Closed_forms.
Context {num : Type} {J : JSNumber num}.

Lemma getAnimationDurations_eq (this : attributes) src n :
  Index.getAnimationDurations this src n
  = (map (fun i => duration (Index.speed this) i (src (n + i)%nat))
         (seq 0 (iterations (Index.waveCount this))),
     (n + iterations (Index.waveCount this))%nat).
Proof.
  exact (generate_one_draw (duration (Index.speed this)) src _ n).
Qed.

Lemma getAnimationDelays_eq (this : attributes) src n :
  Index.getAnimationDelays this src n
  = (map (fun i => neg (mul (src (n + i)%nat) (int 30)))
         (seq 0 (iterations (Index.waveCount this))),
     (n + iterations (Index.waveCount this))%nat).
Proof.
  exact (generate_one_draw (fun _ r => neg (mul r (int 30))) src _ n).
Qed.


End Closed_forms.



(** ** Opacities *)

(** With a single wave the step is a division by zero, and every product
    of the step with the index 0 is NaN. *)
Lemma getOpacities_single_wave (this : attributes) :
  Index.waveCount this = Some 1%Z -> @Index.getOpacities xnum _ this = [XNaN].
Proof.
  intros H. unfold Index.getOpacities. rewrite H.
  cbn [iterations Z.to_nat Pos.to_nat Pos.iter_op seq map].
  f_equal.
  generalize (nth 0 (@Index.opacityRange xnum _ this) nan) as lo.
  generalize (nth 1 (@Index.opacityRange xnum _ this) nan) as hi.
  intros hi lo.
  change (@numberOf xnum _ (Some 1%Z)) with (XFin (1 # 1)).
  change (@int xnum _ 1) with (XFin (1 # 1)).
  change (@int xnum _ (Z.of_nat 0)) with (XFin (0 # 1)).
  change (@sub xnum _ (XFin 1) (XFin 1)) with (XFin (1 + - 1)).
  destruct (@sub xnum _ hi lo) as [|s|p]; destruct lo as [|t|q]; cbn;
    try reflexivity.
  all: try (destruct (Qzero p); reflexivity).
Qed.

Lemma is_nan_SF (x : float) : Prim2SF x = S754_nan -> PrimFloat.is_nan x = true.
Proof.
  intros H. unfold PrimFloat.is_nan.
  rewrite FloatAxioms.eqb_spec, H. reflexivity.
Qed.

(** In binary64 a division by zero is an infinity or NaN, and its product
    with 0 is NaN. *)
Lemma zero_step_is_NaN (lo d : float) :
  PrimFloat.is_nan (lo + (d / 0) * 0)%float = true.
Proof.
  apply is_nan_SF.
  rewrite FloatAxioms.add_spec, FloatAxioms.mul_spec, FloatAxioms.div_spec.
  change (Prim2SF 0) with (S754_zero false).
  destruct (Prim2SF d) as [s|s| |s m e];
    destruct (Prim2SF lo) as [t|t| |t m' e']; reflexivity.
Qed.

(** The single wave of binary64 is NaN too, for every range. *)
Lemma getOpacities_single_wave_binary64 (this : attributes) :
  Index.waveCount this = Some 1%Z ->
  map isNaN (@Index.getOpacities float _ this) = [true].
Proof.
  intros H. unfold Index.getOpacities. rewrite H.
  change (iterations (Some 1%Z)) with 1%nat. cbn [seq map]. f_equal.
  change (@sub float _ (numberOf (Some 1%Z)) (int 1)) with 0%float.
  change (@int float _ (Z.of_nat 0)) with 0%float.
  apply zero_step_is_NaN.
Qed.

(** C1. With [wave-count="1"], [getOpacities] returns, without an
    exception, the one-element sequence [NaN], in exact arithmetic and in
    binary64, in both variants: the output does contain NaN. *)
Theorem getOpacities_one_wave_is_NaN :
  let this : attributes := {[ "wave-count" := "1" ]} in
  map isNaN (@Index.getOpacities xnum _ this) = [true] /\
  map isNaN (@Index.getOpacities float _ this) = [true] /\
  map isNaN (@Test.getOpacities xnum _ this) = [true] /\
  map isNaN (@Test.getOpacities float _ this) = [true].
Proof. repeat split; vm_compute; reflexivity. Qed.






(** ** Durations and delays *)









(** In binary64 the draw 0 gives the delay -0, which is not below 0
    either. *)
Example getAnimationDelays_zero_draw_binary64 :
  map (fun d => PrimFloat.ltb d 0)
      (fst (@Index.getAnimationDelays float _ ∅ (fun _ => 0%float) 0))
  = [false; false; false; false].
Proof. vm_compute. reflexivity. Qed.

(** ** Easing *)

Section Easing.
Context {num : Type} {J : JSNumber num}.

(** The five documented styles give five different, non-empty strings. *)
Lemma getEasing_documented :
  map (fun s => Index.getEasing {[ "animation-style" := s ]}) documented
  = [ VString "cubic-bezier(.4,0,.2,1)"; VString "linear";
      VString "ease-in-out"; VString "cubic-bezier(.68,-0.55,.265,1.55)";
      VString "cubic-bezier(.25,.46,.45,.94)" ].
Proof. vm_compute. reflexivity. Qed.

(** A style that is neither documented nor the name of a member of
    [Object.prototype] falls back to the string of [smooth]. *)
Lemma getEasing_fallback (this : attributes) :
  ~ In (Index.animationStyle this) documented ->
  ~ In (Index.animationStyle this) Object_prototype ->
  Index.getEasing this = VString "cubic-bezier(.4,0,.2,1)".
Proof.
  intros Hd Hp. unfold Index.getEasing.
  generalize dependent (Index.animationStyle this). intros key Hd Hp.
  unfold getProperty at 1. cbn [ownProperty].
  repeat match goal with
  | |- context [String.eqb ?a key] =>
      destruct (String.eqb_spec a key) as [<-|_];
        [exfalso; apply Hd; cbn; tauto|]
  end.
  destruct (existsb (String.eqb key) Object_prototype) eqn:E.
  - exfalso. apply Hp. apply existsb_exists in E as (x & Hx & Ex).
    apply String.eqb_eq in Ex. now subst.
  - reflexivity.
Qed.
End Easing.

(** C5. With [animation-style="constructor"] the lookup in the style
    table finds the member [constructor] that the table inherits from
    [Object.prototype]; it is truthy, so [getEasing] returns it and not the
    string of [smooth]. *)
Theorem getEasing_inherited_member :
  let this : attributes := {[ "animation-style" := "constructor" ]} in
  let smooth : attributes := {[ "animation-style" := "smooth" ]} in
  @Index.getEasing xnum _ this = VNative "constructor" /\
  @Index.getEasing xnum _ this <> Index.getEasing smooth /\
  @Test.getEasing xnum _ this = VNative "constructor" /\
  @Test.getEasing xnum _ this <> Test.getEasing smooth.
Proof. repeat split; try discriminate; vm_compute; reflexivity. Qed.

(** ** The two variants *)

(** C9. The generators of [test.ts] return what those of [src/index.ts]
    return, for every number type, configuration and random source. *)
Theorem generators_agree {num : Type} {J : JSNumber num}
  (this : attributes) (src : nat -> num) (n : nat) :
  Test.getAnimationDurations this src n = Index.getAnimationDurations this src n /\
  Test.getAnimationDelays this src n = Index.getAnimationDelays this src n /\
  @Test.getOpacities num J this = @Index.getOpacities num J this /\
  @Test.getEasing num J this = @Index.getEasing num J this.
Proof. repeat split; reflexivity. Qed.

(** ** Reading an evaluated template: lemmas *)

Section Scanning_lemmas.
Context {num B : Type}.
Variable pick : frag num -> option (frag num) -> list B.

Lemma closed_cons f l : l <> [] -> closed pick (f :: l) <-> closed pick l.
Proof. unfold closed. destruct l; [congruence|]. reflexivity. Qed.


Lemma scan_app l r : closed pick l -> scan pick (l ++ r) = (scan pick l ++ scan pick r)%list.
Proof.
  induction l as [|f l IH]; intros Hc; [reflexivity|].
  destruct l as [|g l].
  - cbn [app scan List.hd_error]. unfold closed in Hc; cbn in Hc.
    rewrite (Hc (List.hd_error r)). now rewrite app_nil_r.
  - cbn [app scan List.hd_error] in *. rewrite <- app_assoc. f_equal.
    apply IH. apply closed_cons in Hc; [exact Hc|discriminate].
Qed.

Lemma scan_quiet l : Forall (quiet pick) l -> scan pick l = [].
Proof.
  induction 1 as [|f l Hf _ IH]; [reflexivity|].
  cbn [scan]. now rewrite Hf, IH.
Qed.


End Scanning_lemmas.

Lemma generateFrom_Forall {num A : Type} (P : A -> Prop)
  (f : nat -> Rand num A) src n i k :
  (forall j s m, P (fst (f j s m))) ->
  Forall P (fst (generateFrom f i n src k)).
Proof.
  intros Hf. revert i k; induction n as [|n IH]; intros i k; [constructor|].
  cbn [generateFrom]. unfold bind, ret.
  pose proof (Hf i src k) as H0. destruct (f i src k) as [x k1].
  specialize (IH (S i) k1).
  destruct (generateFrom f (S i) n src k1) as [xs k2]. cbn in *.
  now constructor.
Qed.

Lemma generate_Forall {num A : Type} (P : A -> Prop)
  (f : nat -> Rand num A) src n k :
  (forall j s m, P (fst (f j s m))) -> Forall P (fst (generate n f src k)).
Proof. apply generateFrom_Forall. Qed.

Lemma Forall_concat_intro {A : Type} (P : A -> Prop) (ls : list (list A)) :
  Forall (Forall P) ls -> Forall P (concat ls).
Proof.
  induction 1 as [|l ls Hl _ IH]; [constructor|].
  cbn [concat]. apply Forall_app. now split.
Qed.

Section Reading_lemmas.
Context {num : Type}.

Lemma quiet_section_Sub v : quiet (@pickSection num) (Sub v).
Proof. intros nx. reflexivity. Qed.

Lemma quiet_section_text s :
  contains (dq "<div class='content-section'>") (dq s) = false ->
  contains (dq "<div class='wave-section ") (dq s) = false ->
  quiet (@pickSection num) (text s).
Proof. intros H1 H2 nx. unfold text, pickSection. now rewrite H1, H2. Qed.


Lemma quiet_lit_Sub needle v : quiet (@pickLit num needle) (Sub v).
Proof. intros nx. reflexivity. Qed.

Lemma quiet_lit_text needle s :
  contains needle (dq s) = false -> quiet (@pickLit num needle) (text s).
Proof. intros H nx. unfold text, pickLit. now rewrite H. Qed.

Lemma blind_lit needle f : blind (@pickLit num needle) f.
Proof. intros nx. reflexivity. Qed.

Lemma closed_lit needle l : closed (@pickLit num needle) l.
Proof. unfold closed. destruct (List.last _ _); [apply blind_lit|exact I]. Qed.




Lemma calm_Sub v : @calm num (Sub v).
Proof. exact I. Qed.

Lemma calm_text s : String.eqb (dq s) "s " = false -> @calm num (text s).
Proof. intros H. exact H. Qed.

Lemma scan_quiet_app {B : Type} (pick : frag num -> option (frag num) -> list B) l r :
  Forall (quiet pick) l -> scan pick (l ++ r) = scan pick r.
Proof.
  induction 1 as [|f l Hf _ IH]; [reflexivity|].
  cbn [app scan]. now rewrite Hf, IH.
Qed.
End Reading_lemmas.

Section Substituted.
Context {num : Type}.

Lemma replaceDigits_substituted (f : string -> num) s :
  Forall substituted (replaceDigits f s).
Proof.
  unfold replaceDigits. apply Forall_map, Forall_forall.
  intros [[|] t] _; exact I.
Qed.

Lemma replaceDigits_section (f : string -> num) s :
  Forall (quiet (@pickSection num)) (replaceDigits f s).
Proof.
  eapply List.Forall_impl; [|apply replaceDigits_substituted].
  intros [t|v] H; [destruct H|apply quiet_section_Sub].
Qed.

Lemma replaceDigits_calm (f : string -> num) s :
  Forall (@calm num) (replaceDigits f s).
Proof.
  eapply List.Forall_impl; [|apply replaceDigits_substituted].
  intros [t|v] H; [destruct H|exact I].
Qed.

Lemma replaceDigits_lit needle (f : string -> num) s :
  Forall (quiet (@pickLit num needle)) (replaceDigits f s).
Proof.
  eapply List.Forall_impl; [|apply replaceDigits_substituted].
  intros [t|v] H; [destruct H|apply quiet_lit_Sub].
Qed.
End Substituted.

Ltac quiet_frag :=
  lazymatch goal with
  | |- quiet pickSection (Sub _) => apply quiet_section_Sub
  | |- quiet pickSection (text _) =>
      apply quiet_section_text; vm_compute; reflexivity
  | |- quiet (pickLit _) (Sub _) => apply quiet_lit_Sub
  | |- quiet (pickLit _) (text _) =>
      apply quiet_lit_text; vm_compute; reflexivity
  end.

Ltac calm_list :=
  repeat first
    [ assumption
    | apply List.Forall_nil
    | apply List.Forall_cons;
      [lazymatch goal with
       | |- calm (Sub _) => apply calm_Sub
       | |- calm (text _) => apply calm_text; vm_compute; reflexivity
       end|]
    | apply List.Forall_app; split
    | apply replaceDigits_calm ].

Ltac quiet_list :=
  repeat first
    [ assumption
    | apply List.Forall_nil
    | apply List.Forall_cons; [quiet_frag|]
    | apply List.Forall_app; split
    | apply replaceDigits_section
    | apply replaceDigits_lit ].





(** Brings the wave section in [E] into the form of its template; the
    [<use>] elements become [els], each satisfying [P]. *)
Ltac open_section unfolder Hdur Hdel P E :=
  unfolder E; unfold bind at 1 in E; rewrite Hdur in E;
  unfold bind at 1 in E; rewrite Hdel in E;
  cbv zeta in E; unfold bind at 1 in E;
  match type of E with context [generate ?n ?f ?s ?k] =>
    let Hels := fresh "Hels" in
    pose proof (generate_Forall P f s n k) as Hels;
    destruct (generate n f s k) as [els k'];
    assert (Forall P els) as Hel
      by (apply Hels; intros ? ? ?; unfold bind, Math_random, ret; cbn [fst];
          first [solve [quiet_list] | solve [calm_list]]);
    clear Hels
  end;
  unfold ret in E; cbn [fst snd] in *.

Section Index_structure.
Context {num : Type} {J : JSNumber num}.





(** *** Breakpoint rules *)

Lemma Index_createWaveSection_media (this : attributes) b src n :
  let ws := fst (Index.createWaveSection this b src n) in
  Forall (quiet (pickLit "@media")) (html ws) /\
  Forall (quiet (pickLit "@media")) (styles ws).
Proof.
  intros ws. remember ws as w eqn:E. subst ws.
  open_section ltac:(fun H => unfold Index.createWaveSection in H)
    (@getAnimationDurations_eq num J) (@getAnimationDelays_eq num J)
    (Forall (@quiet num _ (pickLit "@media"))) E.
  subst w. cbn [html styles].
  apply Forall_concat_intro in Hel. split.
  - quiet_list.
  - apply Forall_concat_intro, Forall_map, Forall_forall. intros i _.
    quiet_list.
Qed.

Lemma Index_optional_media (this : attributes) (present b : bool) src n :
  let ws := fst ((if present then Index.createWaveSection this b
                  else ret {| html := []; styles := [] |}) src n) in
  Forall (quiet (pickLit "@media")) (html ws) /\
  Forall (quiet (pickLit "@media")) (styles ws).
Proof.
  destruct present; [apply Index_createWaveSection_media|].
  cbn. split; constructor.
Qed.

Lemma Index_responsiveStyles_media (this : attributes) :
  mediaRules (Index.responsiveStyles this (Index.getResponsiveWaveHeight this))
  = if Index.responsive this then 3%nat else 0%nat.
Proof.
  unfold Index.responsiveStyles, Index.getResponsiveWaveHeight, mediaRules.
  destruct (Index.responsive this); cbn [negb Index.mobile Index.tablet];
    [|reflexivity].
  repeat (rewrite scan_app by apply closed_lit).
  repeat (rewrite (scan_quiet _ (replaceDigits _ _)) by apply replaceDigits_lit).
  repeat (rewrite (scan_quiet _ [Sub _; Sub _]) by quiet_list).
  vm_compute. reflexivity.
Qed.

Lemma Index_render_media (this : attributes) src n :
  mediaRules (fst (Index.render this src n))
  = if Index.responsive this then 3%nat else 0%nat.
Proof.
  rewrite <- Index_responsiveStyles_media.
  unfold Index.render. cbv zeta.
  set (R := Index.responsiveStyles _ _) in *. clearbody R.
  generalize (String.eqb (Index.position this) "top") as isTop.
  generalize (String.eqb (Index.position this) "bottom") as isBottom.
  generalize (String.eqb (Index.position this) "both") as isBoth.
  intros isBoth isBottom isTop.
  unfold bind at 1.
  pose proof (Index_optional_media this (isTop || isBoth) false src n) as Ht.
  cbv zeta in Ht. revert Ht.
  match goal with |- context [(if isTop || isBoth then ?a else ?b) src n] =>
    destruct ((if isTop || isBoth then a else b) src n) as [tw n1] end.
  intros (Ht1 & Ht2).
  unfold bind at 1.
  pose proof (Index_optional_media this (isBottom || isBoth) true src n1) as Hb.
  cbv zeta in Hb. revert Hb.
  match goal with |- context [(if isBottom || isBoth then ?a else ?b) src n1] =>
    destruct ((if isBottom || isBoth then a else b) src n1) as [bw n2] end.
  intros (Hb1 & Hb2).
  unfold ret. cbn [fst] in *. unfold mediaRules. f_equal.
  rewrite scan_quiet_app by quiet_list.
  rewrite (scan_app _ R) by apply closed_lit.
  rewrite (scan_quiet _ (_ ++ _)); [apply app_nil_r|].
  destruct isBoth; quiet_list.
Qed.

(** *** Durations in the style rules *)






End Index_structure.

Section Test_structure.
Context {num : Type} {J : JSNumber num}.



End Test_structure.

(** ** The rendered sections *)



(** ** Breakpoint rules *)



(** With any other value of the attribute the three rules are there. *)
Lemma render_with_breakpoints {num : Type} {J : JSNumber num}
  (this : attributes) (src : nat -> num) (n : nat) :
  getAttribute this "responsive" <> Some "false" ->
  mediaRules (fst (Index.render this src n)) = 3%nat.
Proof.
  intros H. rewrite Index_render_media. unfold Index.responsive.
  destruct (getAttribute this "responsive") as [s|]; [|reflexivity].
  destruct (String.eqb_spec s "false"); [congruence|reflexivity].
Qed.

(** ** No waves *)


Section No_waves.
Context {num : Type} {J : JSNumber num}.


End No_waves.



(** With the default four waves there are four references and as many
    rules. *)
Example four_waves_four_references :
  let ws := fst (@Index.createWaveSection xnum _ ∅ false (fun _ => XFin (1 # 2)) 0) in
  waveReferences (html ws) = 4%nat /\
  List.length (animationDurations (styles ws)) = 4%nat.
Proof. vm_compute. split; reflexivity. Qed.

(** ** A speed that is not a number *)





(** With the empty string the speed is the default 1, and no duration is
    NaN. *)
Example render_with_empty_speed :
  let this : attributes := {[ "speed" := EmptyString ]} in
  @parseFloat xnum _ EmptyString = XNaN /\
  @Index.speed xnum _ this = XFin 1 /\
  map isNaN (fst (Index.getAnimationDurations this (fun _ => XFin (1 # 2)) 0))
  = [false; false; false; false].
Proof. vm_compute. repeat split; reflexivity. Qed.

(** In exact arithmetic and in binary64: the four durations of the
    default section are NaN. *)
Example render_with_invalid_speed_durations :
  let this : attributes := {[ "speed" := "fast" ]} in
  animationDurations (fst (Index.render this (fun _ => XFin (1 # 2)) 0))
  = repeat (VNumber XNaN) 4 /\
  animationDurations (fst (Index.render this (fun _ => 0.5%float) 0))
  = repeat (VNumber PrimFloat.nan) 4.
Proof. split; vm_compute; reflexivity. Qed.
